(** * GPflow/misc.py: a shallow embedding of the helper module

    Python values, the exceptions the module raises or lets through, and the
    parts of numpy and TensorFlow (1.x) the helpers call are modelled
    explicitly, so that each helper reads as a Rocq function next to its
    source. *)

From Stdlib Require Import List String Ascii Arith Lia ZArith QArith Bool.
Import ListNotations.
Open Scope string_scope.

(** ** Python objects the helpers see *)

(** numpy scalar types ([np.float32], [np.int16], [np.bool_], ...). *)
Inductive scalar_type : Type :=
  | Float16 | Float32 | Float64
  | Int8 | Int16 | Int32 | Int64 | UInt8
  | Bool_ | Str_ | Bytes_ | Complex64 | Complex128 | Object_.

Definition scalar_type_eqb (a b : scalar_type) : bool :=
  match a, b with
  | Float16, Float16 | Float32, Float32 | Float64, Float64
  | Int8, Int8 | Int16, Int16 | Int32, Int32 | Int64, Int64 | UInt8, UInt8
  | Bool_, Bool_ | Str_, Str_ | Bytes_, Bytes_
  | Complex64, Complex64 | Complex128, Complex128 | Object_, Object_ => true
  | _, _ => false
  end.

#[warnings="-register-all"]
Inductive pyval : Type :=
  | PyNone
  | PyBool (b : bool)
  | PyInt (z : Z)
  | PyFloat (q : Q)
  | PyComplex (re im : Q)
  | PyStr (s : string)
  | PyBytes (s : string)
  | PyList (l : list pyval)
  (** an instance of a numpy scalar type, e.g. [np.float64(1.0)] *)
  | NpScalar (t : scalar_type)
  (** an [np.ndarray] with its element type and shape *)
  | NpArray (t : scalar_type) (shape : list nat)
  (** a numpy scalar type itself, e.g. the class [np.float64] *)
  | NpScalarType (t : scalar_type)
  (** a numpy dtype object, e.g. [np.dtype('float64')] *)
  | NpDtype (t : scalar_type)
  (** the class attribute [np.generic.dtype], a getset descriptor *)
  | GetsetDescriptor
  (** [tf.DType], e.g. [tf.float64] *)
  | TfDType (t : scalar_type)
  | TfTensor (id : nat) (t : scalar_type)
  | TfVariable (id : nat) (t : scalar_type)
  (** a [tf.Graph], printed through its identity *)
  | TfGraph (id : nat)
  (** an instance of another [numbers.Number] type, such as
      [fractions.Fraction] or [decimal.Decimal] *)
  | PyNumber (id : nat)
  | PyMemoryview (id : nat)
  (** any other object (a user class instance, a pandas object, ...), with
      the attributes it exposes *)
  | PyObject (id : nat) (attrs : list (string * pyval)).

(** ** Exceptions and an error monad for code that may raise *)

(** A raised exception.  A message built with [str.format] is kept as its
    template and the objects formatted into it. *)
Inductive exn : Type :=
  | KeyError (msg : string)
  | RuntimeError (msg : string)
  | ValueError (template : string) (args : list pyval)
  | TypeError (msg : string)
  | AttributeError (msg : string)
  | InvalidArgumentError (msg : string)
  (** [GPflowError(msg.format(variable=variable, graph=graph))]: the variable
      and the graph are identified by their object identities. *)
  | GPflowError (template : string) (variable : nat) (graph : nat).

Inductive result (A : Type) : Type :=
  | Ok (a : A)
  | Raise (e : exn).
Arguments Ok {A} a.
Arguments Raise {A} e.

Definition bind {A B} (m : result A) (k : A -> result B) : result B :=
  match m with Ok a => k a | Raise e => Raise e end.

Notation "x <- m ;; k" := (bind m (fun x => k))
  (at level 61, m at next level, right associativity).

(** [tf.map_fn]-style traversal: the first raising element aborts the map. *)
Fixpoint mapM {A B} (f : A -> result B) (l : list A) : result (list B) :=
  match l with
  | [] => Ok []
  | x :: xs => y <- f x ;; ys <- mapM f xs ;; Ok (y :: ys)
  end.

(** ** [tensor_name] *)

(** [sep + part] for each part, in order. *)
Fixpoint join_tail (sep : string) (parts : list string) : string :=
  match parts with
  | [] => ""
  | q :: qs => sep ++ q ++ join_tail sep qs
  end.

(** [sep.join(parts)]: the first part, then [sep + part] for each further one. *)
Definition str_join (sep : string) (parts : list string) : string :=
  match parts with
  | [] => ""
  | p :: ps => p ++ join_tail sep ps
  end.

(** [def tensor_name( *subnames): return '/'.join(subnames)] *)
Definition tensor_name (subnames : list string) : string :=
  str_join "/" subnames.

(** [s.split(sep)] for a one-character separator: the pieces between the
    separators, empty ones included. *)
Fixpoint split_on_aux (sep : ascii) (s : string) (cur : string) : list string :=
  match s with
  | EmptyString => [cur]
  | String c rest =>
      if Ascii.eqb c sep then cur :: split_on_aux sep rest EmptyString
      else split_on_aux sep rest (cur ++ String c EmptyString)
  end.

Definition split_on (sep : ascii) (s : string) : list string :=
  split_on_aux sep s EmptyString.

(** [sep in s] for a one-character [sep]. *)
Fixpoint has_char (sep : ascii) (s : string) : bool :=
  match s with
  | EmptyString => false
  | String c rest => Ascii.eqb c sep || has_char sep rest
  end.

(** ** Value classification *)

(** [isinstance(value, np.ndarray)] *)
Definition is_ndarray (value : pyval) : bool :=
  match value with NpArray _ _ => true | _ => false end.

(** [isinstance(value, (tf.Tensor, tf.Variable))] *)
Definition is_tensor (value : pyval) : bool :=
  match value with TfTensor _ _ | TfVariable _ _ => true | _ => false end.

(** [isinstance(value, str)]: Python strings and [np.str_], a subclass of
    [str]. *)
Definition isinstance_str (value : pyval) : bool :=
  match value with PyStr _ | NpScalar Str_ => true | _ => false end.

(** [np.isscalar(element)]:
    [isinstance(element, generic) or type(element) in ScalarType
     or isinstance(element, numbers.Number)], where [ScalarType] holds
    [int, float, complex, bool, bytes, str, memoryview] and numpy's scalar
    types; any [numbers.Number] instance qualifies too.  Classes, dtypes,
    arrays (also 0-d ones), lists, [None], graph objects and other objects
    are none of these. *)
Definition np_isscalar (element : pyval) : bool :=
  match element with
  | NpScalar _ => true
  | PyBool _ | PyInt _ | PyFloat _ | PyComplex _ _ | PyStr _ | PyBytes _ => true
  | PyNumber _ | PyMemoryview _ => true
  | _ => false
  end.

(** [value is not None] *)
Definition is_not_none (value : pyval) : bool :=
  match value with PyNone => false | _ => true end.

(** [return (not isinstance(value, str)) and np.isscalar(value)] *)
Definition is_number (value : pyval) : bool :=
  negb (isinstance_str value) && np_isscalar value.

(** [return ((value is not None) and is_number(value) or is_ndarray(value)
    or is_tensor(value))]: [and] binds tighter than [or]; every operand is a
    [bool], so Python's short-circuit operators return a [bool]. *)
Definition is_valid_param_value (value : pyval) : bool :=
  (is_not_none value && is_number value) || is_ndarray value || is_tensor value.

(** The reading of the predicate with [not None] guarding all three tests. *)
Definition is_valid_param_value_guarded (value : pyval) : bool :=
  is_not_none value && (is_number value || is_ndarray value || is_tensor value).

(** ** [normalize_dtype] *)

Fixpoint lookup_attr (a : string) (attrs : list (string * pyval)) : option pyval :=
  match attrs with
  | [] => None
  | (n, v) :: rest => if String.eqb n a then Some v else lookup_attr a rest
  end.

(** Attribute [.dtype]: numpy scalars and arrays carry a dtype object; on a
    numpy scalar class the lookup finds the class attribute of [np.generic],
    a getset descriptor; tensors and variables carry a [tf.DType]; any other
    object answers with its own attribute, if it has one. *)
Definition getattr_dtype (value : pyval) : result pyval :=
  match value with
  | NpScalar t | NpArray t _ => Ok (NpDtype t)
  | NpScalarType _ => Ok GetsetDescriptor
  | TfTensor _ t | TfVariable _ t => Ok (TfDType t)
  | PyObject _ attrs =>
      match lookup_attr "dtype" attrs with
      | Some d => Ok d
      | None => Raise (AttributeError "object has no attribute 'dtype'")
      end
  | _ => Raise (AttributeError "object has no attribute 'dtype'")
  end.

(** Attribute [.type]: a numpy dtype object's scalar type, or another
    object's own attribute. *)
Definition getattr_type (value : pyval) : result pyval :=
  match value with
  | NpDtype t => Ok (NpScalarType t)
  | GetsetDescriptor =>
      Raise (AttributeError "'getset_descriptor' object has no attribute 'type'")
  | PyObject _ attrs =>
      match lookup_attr "type" attrs with
      | Some ty => Ok ty
      | None => Raise (AttributeError "object has no attribute 'type'")
      end
  | _ => Raise (AttributeError "object has no attribute 'type'")
  end.

(** [tf.DType.as_numpy_dtype]: the numpy scalar class of the dtype. *)
Definition as_numpy_dtype (t : scalar_type) : pyval := NpScalarType t.

(** [tf.as_dtype(type_value)]: a [tf.DType] is returned as is; a numpy type
    or dtype is mapped to the [tf.DType] of the same element type; numpy's
    object type has none. *)
Definition tf_as_dtype (type_value : pyval) : result pyval :=
  match type_value with
  | TfDType t => Ok (TfDType t)
  | NpScalarType t | NpDtype t =>
      match t with
      | Object_ => Raise (TypeError "Cannot convert value to a TensorFlow DType.")
      | _ => Ok (TfDType t)
      end
  | _ => Raise (TypeError "Cannot convert value to a TensorFlow DType.")
  end.

(** [x in [a, b, ...]] on numpy scalar classes (compared by identity). *)
Definition type_in (x : pyval) (ts : list scalar_type) : bool :=
  match x with
  | NpScalarType t => existsb (scalar_type_eqb t) ts
  | _ => false
  end.

Definition unknown_dtype_template : string :=
  "Unknown dtype " ++ String (ascii_of_nat 34) "{0}" ++ String (ascii_of_nat 34) ".".

Section NormalizeDtype.

(** [FLOAT_TYPE = settings.dtypes.float_type], read once at import. *)
Variable FLOAT_TYPE : pyval.

(** [normalize_dtype(value)], line by line. *)
Definition normalize_dtype (value0 : pyval) : result pyval :=
  let '(tf_type, value) :=
    match value0 with
    | TfDType t => (true, as_numpy_dtype t)
    | _ => (false, value0)
    end in
  d <- getattr_dtype value ;;
  ty <- getattr_type d ;;
  value' <-
    (if type_in ty [Float32; Float64] then Ok FLOAT_TYPE
     else if type_in ty [Int16; Int32; Int64] then Ok (NpScalarType Int32)
     else Raise (ValueError unknown_dtype_template [value])) ;;
  if negb tf_type then Ok value' else tf_as_dtype value'.

End NormalizeDtype.

(** ** The computation graph *)

(** A [tf.Graph]: its identity, its operations by name with their output
    tensors, the list stored under [tf.GraphKeys.TRAINABLE_VARIABLES],
    holding variables by identity ([tf.Variable] of TensorFlow 1.x defines no
    [__eq__], so [in] and [list.remove] compare identities), and whether
    [finalize()] has been called.  A collection never created reads as the
    empty list through [get_collection] and [get_collection_ref], so it is
    modelled as the empty list. *)
Record graph : Type := mk_graph {
  graph_id : nat;
  graph_ops : list (string * list pyval);
  graph_trainables : list nat;
  graph_finalized : bool
}.

(** [_get_graph(graph)]: the supplied graph, else the default one. *)
Definition _get_graph (default_graph : graph) (g : option graph) : graph :=
  match g with None => default_graph | Some g' => g' end.

Fixpoint lookup_op (name : string) (ops : list (string * list pyval))
  : option (list pyval) :=
  match ops with
  | [] => None
  | (n, outs) :: rest => if String.eqb n name then Some outs else lookup_op name rest
  end.

(** [name.split(":")] *)
Fixpoint split_colon_aux (s : string) (cur : string) : list string :=
  match s with
  | EmptyString => [cur]
  | String c rest =>
      if Ascii.eqb c ":" then cur :: split_colon_aux rest EmptyString
      else split_colon_aux rest (cur ++ String c EmptyString)
  end.

Definition split_colon (s : string) : list string := split_colon_aux s EmptyString.

(** [":" in name] *)
Fixpoint has_colon (s : string) : bool :=
  match s with
  | EmptyString => false
  | String c rest => Ascii.eqb c ":" || has_colon rest
  end.

(** Whitespace as [int()] skips it (ASCII characters only are modelled). *)
Definition is_py_space (c : ascii) : bool :=
  let n := nat_of_ascii c in
  Nat.eqb n 32 || (Nat.leb 9 n && Nat.leb n 13) || (Nat.leb 28 n && Nat.leb n 31).

Fixpoint strip_leading (s : string) : string :=
  match s with
  | String c rest => if is_py_space c then strip_leading rest else s
  | EmptyString => EmptyString
  end.

Fixpoint str_rev (s : string) (acc : string) : string :=
  match s with
  | EmptyString => acc
  | String c rest => str_rev rest (String c acc)
  end.

(** [s.strip()] *)
Definition py_strip (s : string) : string :=
  str_rev (strip_leading (str_rev (strip_leading s) EmptyString)) EmptyString.

(** Decimal digits with single underscores between them; [after_sep] says
    that a digit must come next (at the start, and after an underscore). *)
Fixpoint parse_digits (s : string) (acc : Z) (after_sep : bool) : option Z :=
  match s with
  | EmptyString => if after_sep then None else Some acc
  | String c rest =>
      let n := nat_of_ascii c in
      if Nat.leb 48 n && Nat.leb n 57 then
        parse_digits rest (acc * 10 + Z.of_nat (n - 48))%Z false
      else if Ascii.eqb c "_" && negb after_sep then parse_digits rest acc true
      else None
  end.

(** [int(s)] for a string, in base 10: surrounding whitespace, an optional
    sign, then digits; [None] where Python raises [ValueError]. *)
Definition py_int (s : string) : option Z :=
  match py_strip s with
  | String c rest =>
      if Ascii.eqb c "-" then option_map Z.opp (parse_digits rest 0 true)
      else if Ascii.eqb c "+" then parse_digits rest 0 true
      else parse_digits (String c rest) 0 true
  | EmptyString => None
  end.

(** [lst[i]] for an integer [i]: negative indices count from the end;
    [None] where Python raises [IndexError]. *)
Definition py_index {A} (lst : list A) (i : Z) : option A :=
  if (0 <=? i)%Z then nth_error lst (Z.to_nat i)
  else if (0 <=? Z.of_nat (List.length lst) + i)%Z
       then nth_error lst (Z.to_nat (Z.of_nat (List.length lst) + i))
       else None.

(** [Graph.get_tensor_by_name(name)] of TensorFlow 1.x
    ([_as_graph_element_locked] with [allow_tensor=True,
    allow_operation=False]): a name with a colon is split into an operation
    name and an output index; a malformed one raises [ValueError]; a missing
    operation or output raises [KeyError]. *)
Definition graph_get_tensor_by_name (g : graph) (name : string) : result pyval :=
  if has_colon name then
    match split_colon name with
    | [op_name; out_s] =>
        match py_int out_s with
        | None => Raise (ValueError "The name {0} looks a like a Tensor name, but is not a valid one." [PyStr name])
        | Some out_n =>
            match lookup_op op_name (graph_ops g) with
            | None => Raise (KeyError "The name refers to a Tensor which does not exist. The operation does not exist in the graph.")
            | Some outs =>
                match py_index outs out_n with
                | Some t => Ok t
                | None => Raise (KeyError "The name refers to a Tensor which does not exist. The operation exists but has fewer outputs.")
                end
            end
        end
    | _ => Raise (ValueError "The name {0} looks a like a Tensor name, but is not a valid one." [PyStr name])
    end
  else
    match lookup_op name (graph_ops g) with
    | Some _ => Raise (ValueError "The name {0} refers to an Operation, not a Tensor." [PyStr name])
    | None => Raise (ValueError "The name {0} looks like an (invalid) Operation name, not a Tensor." [PyStr name])
    end.

(** [_get_tensor_by_name(name, index, graph)]: the lookup of
    [':'.join([name, index])], with [KeyError] turned into [None]. *)
Definition _get_tensor_by_name (name index : string) (g : graph)
  : result (option pyval) :=
  match graph_get_tensor_by_name g (name ++ ":" ++ index) with
  | Ok t => Ok (Some t)
  | Raise (KeyError _) => Ok None
  | Raise e => Raise e
  end.

Definition ambiguous_template : string :=
  "Ambiguous tensor for " ++ String (ascii_of_nat 34) "{0}"
  ++ String (ascii_of_nat 34) " with multiple indices found.".

(** [get_tensor_by_name(name, index=None, graph=None)], the graph already
    resolved by [_get_graph]. *)
Definition get_tensor_by_name (name : string) (index : option string) (g : graph)
  : result (option pyval) :=
  match index with
  | Some i => _get_tensor_by_name name i g
  | None =>
      tensor <- _get_tensor_by_name name "0" g ;;
      match tensor with
      | None => Ok tensor
      | Some _ =>
          t1 <- _get_tensor_by_name name "1" g ;;
          match t1 with
          | Some _ => Raise (ValueError ambiguous_template [PyStr name])
          | None => Ok tensor
          end
      end
  end.

(** ** The trainables collection *)

(** [v in lst] *)
Definition py_in (v : nat) (lst : list nat) : bool := existsb (Nat.eqb v) lst.

(** [lst.remove(v)]: drops the first element equal to [v]; raises
    [ValueError] when there is none. *)
Fixpoint list_remove (v : nat) (lst : list nat) : result (list nat) :=
  match lst with
  | [] => Raise (ValueError "list.remove(x): x not in list" [])
  | x :: xs =>
      if Nat.eqb x v then Ok xs
      else rest <- list_remove v xs ;; Ok (x :: rest)
  end.

Definition set_trainables (g : graph) (l : list nat) : graph :=
  mk_graph (graph_id g) (graph_ops g) l (graph_finalized g).

(** [graph.add_to_collection(TRAINABLE_VARIABLES, value)]: the graph first
    checks that it is not finalized, then appends to the stored list. *)
Definition add_to_collection (g : graph) (value : nat) : result graph :=
  if graph_finalized g
  then Raise (RuntimeError "Graph is finalized and cannot be modified.")
  else Ok (set_trainables g (graph_trainables g ++ [value])).

(** [add_to_trainables(variable, graph)]: [get_collection] returns a copy of
    the list (reading needs no check), [add_to_collection] appends to the
    stored one. *)
Definition add_to_trainables (variable : nat) (g : graph) : result graph :=
  if negb (py_in variable (graph_trainables g))
  then add_to_collection g variable
  else Ok g.

Definition not_found_template : string :=
  "TensorFlow variable {variable} not found in the graph {graph}".

(** [remove_from_trainables(variable, graph)]: [get_collection_ref] returns
    the stored list itself, which [remove] mutates; neither checks whether
    the graph is finalized. *)
Definition remove_from_trainables (variable : nat) (g : graph) : result graph :=
  let trainables := graph_trainables g in
  if negb (py_in variable trainables)
  then Raise (GPflowError not_found_template variable (graph_id g))
  else l <- list_remove variable trainables ;; Ok (set_trainables g l).

(** ** [vec_to_tri] *)

(** Tensor entries are modelled as integers: the claims are about where each
    entry lands, not about its floating-point value. *)
Definition matrix := list (list Z).

(** [np.tri(N, dtype=bool)]: entry [(i, j)] is set iff [j <= i]. *)
Definition tri (N i j : nat) : bool := Nat.leb j i.

(** [np.tril_indices(N)] zipped into pairs: [np.nonzero] of the [tri] mask,
    which scans the mask in row-major order. *)
Definition tril_indices (N : nat) : list (nat * nat) :=
  flat_map (fun i => map (fun j => (i, j)) (filter (tri N i) (seq 0 N))) (seq 0 N).

(** The zero tensor of shape [[N, N]]. *)
Definition zeros (N : nat) : matrix := repeat (repeat 0%Z N) N.

(** [m[i, j]], reading [0] out of range. *)
Definition mat_get (m : matrix) (i j : nat) : Z := nth j (nth i m []) 0%Z.

Fixpoint list_alter {A} (f : A -> A) (i : nat) (l : list A) : list A :=
  match l, i with
  | [], _ => []
  | x :: xs, O => f x :: xs
  | x :: xs, S i' => x :: list_alter f i' xs
  end.

(** [out[i, j] += u]: [tf.scatter_nd] sums the updates of an index. *)
Definition add_at (m : matrix) (iu : (nat * nat) * Z) : matrix :=
  let '((i, j), u) := iu in
  list_alter (list_alter (fun x => (x + u)%Z) j) i m.

Definition scatter_nd_shape_template : string :=
  "The outer dimensions of updates.shape must match the outer dimensions of indices.shape, and its inner dimensions the inner dimensions of shape".

(** Shape inference of [tf.scatter_nd(indices, updates, shape=[N, N])] when
    the op is built, for [indices] a constant and [updates] of static shape
    [[updates_len]]: an empty index list is a constant of shape [[0]], whose
    index depth 0 asks for updates of shape [[N, N]]; otherwise the indices
    have shape [[K, 2]] and the updates need shape [[K]].  A mismatch is a
    [ValueError] raised while the graph is built. *)
Definition scatter_nd_shape_check (indices : list (nat * nat)) (N : nat)
  (updates_len : nat) : option exn :=
  match indices with
  | [] => Some (ValueError scatter_nd_shape_template [])
  | _ :: _ =>
      if Nat.eqb updates_len (List.length indices) then None
      else Some (ValueError scatter_nd_shape_template [])
  end.

(** The [ScatterNd] kernel on concrete values: the updates must match the
    indices one for one and every index must lie inside the shape; the
    output starts at zero and each update is added at its index. *)
Definition scatter_nd (indices : list (nat * nat)) (N : nat) (updates : list Z)
  : result matrix :=
  if negb (Nat.eqb (List.length updates) (List.length indices)) then
    Raise (InvalidArgumentError "updates.shape must equal indices.shape[:-1]")
  else if negb (forallb (fun ij => Nat.ltb (fst ij) N && Nat.ltb (snd ij) N) indices) then
    Raise (InvalidArgumentError "indices does not index into shape")
  else Ok (fold_left add_at (combine indices updates) (zeros N)).

(** A rank-2 tensor of static shape [[D, M]]: its rows (the batch, [D] of
    them) and its static width [M]; a well-formed value has every row of
    length [M] (see [well_formed]). *)
Record tensor2 : Type := mk_tensor2 {
  t2_rows : list (list Z);
  t2_cols : nat
}.


(** [vec_to_tri(vectors, N)]: one shared index list, and [tf.map_fn] of the
    per-vector scatter over the leading (batch) dimension.  [tf.map_fn]
    builds [vec_to_tri_vector] once, on an element of static shape [[M]], so
    the shape check of [tf.scatter_nd] runs at graph construction whatever
    the batch; the kernel then runs on each row. *)
Definition vec_to_tri (vectors : tensor2) (N : nat) : result (list matrix) :=
  let indices := tril_indices N in
  let vec_to_tri_vector (vector : list Z) := scatter_nd indices N vector in
  match scatter_nd_shape_check indices N (t2_cols vectors) with
  | Some e => Raise e
  | None => mapM vec_to_tri_vector (t2_rows vectors)
  end.

(** [N (N + 1) / 2], the length of each packed vector. *)
Definition tri_num (N : nat) : nat := (N * (N + 1) / 2)%nat.

(** * Properties *)

(** ** Helper lemmas on strings *)

Lemma str_append_assoc (a b c : string) : (a ++ b) ++ c = a ++ (b ++ c).
Proof. induction a as [|x a IH]; simpl; [reflexivity | now rewrite IH]. Qed.

Lemma str_append_nil_r (a : string) : a ++ "" = a.
Proof. induction a as [|x a IH]; simpl; [reflexivity | now rewrite IH]. Qed.

Lemma str_length_append (a b : string) :
  String.length (a ++ b) = (String.length a + String.length b)%nat.
Proof. induction a as [|x a IH]; simpl; [reflexivity | now rewrite IH]. Qed.

Lemma join_tail_length (sep : string) (ps : list string) :
  String.length (join_tail sep ps)
  = (fold_right (fun q acc => String.length sep + String.length q + acc) 0 ps)%nat.
Proof.
  induction ps as [|q qs IH]; simpl; [reflexivity|].
  rewrite !str_length_append, IH. lia.
Qed.

(** ** C8: [tensor_name] *)

(** C8: [tensor_name] joins its segments with ["/"] and checks nothing: no
    segment gives [""], one segment gives itself, a further segment is
    appended after a ["/"]; the output's length is the segments' lengths plus
    one separator between each two; segments holding ["/"] or empty are kept
    as they are; [tensor_name("a","b","c") = "a/b/c"]. *)
Theorem tensor_name_joins_with_slash :
  tensor_name [] = ""
  /\ (forall s, tensor_name [s] = s)
  /\ (forall s t rest, tensor_name (s :: t :: rest) = s ++ "/" ++ tensor_name (t :: rest))
  /\ (forall parts, String.length (tensor_name parts)
        = (fold_right (fun q acc => String.length q + acc) 0 parts
           + (List.length parts - 1))%nat)
  /\ tensor_name ["a/b"; ""; "c"] = "a/b//c"
  /\ tensor_name ["a"; "b"; "c"] = "a/b/c".
Proof.
  unfold tensor_name, str_join.
  split; [reflexivity|]. split; [intro s; simpl; apply str_append_nil_r|].
  split; [intros s t rest; simpl; reflexivity|].
  split; [|split; reflexivity].
  intros [|p ps]; [reflexivity|].
  rewrite str_length_append, join_tail_length. simpl.
  induction ps as [|q qs IH]; simpl; lia.
Qed.

(** ** C7, C10, C4: value classification *)

(** C7: [is_number] holds exactly for the values that [np.isscalar] accepts
    and that are not [str] instances: [5] and [5.0] are numbers, ["5"] and
    every numpy array (of any element type and shape) are not. *)
Theorem is_number_spec :
  (forall v, is_number v = true <-> np_isscalar v = true /\ isinstance_str v = false)
  /\ is_number (PyInt 5) = true
  /\ is_number (PyFloat (5 # 1)) = true
  /\ is_number (PyStr "5") = false
  /\ (forall t shape, is_number (NpArray t shape) = false).
Proof.
  split.
  - intro v. unfold is_number. rewrite andb_true_iff, negb_true_iff. tauto.
  - repeat split; reflexivity.
Qed.

(** C10: only [str] instances are excluded before the scalar test, so
    [is_number] is true for every Python [bool] and every [bytes] object
    (and for numpy's [bool_] and [bytes_] scalars), and
    [is_valid_param_value] accepts all of them. *)
Theorem is_number_accepts_bool_and_bytes :
  (forall b, is_number (PyBool b) = true /\ is_valid_param_value (PyBool b) = true)
  /\ (forall s, is_number (PyBytes s) = true /\ is_valid_param_value (PyBytes s) = true)
  /\ (forall t, (t = Bool_ \/ t = Bytes_) ->
        is_number (NpScalar t) = true /\ is_valid_param_value (NpScalar t) = true).
Proof.
  split; [intros b; split; reflexivity|]. split; [intros s; split; reflexivity|].
  intros t [-> | ->]; split; reflexivity.
Qed.

Lemma is_number_accepts_bool_and_bytes_witness :
  (Bool_ = Bool_ \/ Bool_ = Bytes_)
  /\ is_number (NpScalar Bool_) = true /\ is_valid_param_value (NpScalar Bool_) = true.
Proof.
  split; [left; reflexivity|].
  exact (proj2 (proj2 is_number_accepts_bool_and_bytes) Bool_ (or_introl eq_refl)).
Defined.

(** C4: [is_valid_param_value] as written, [((not None) and is_number) or
    is_ndarray or is_tensor], agrees on every value with the reading
    [(not None) and (is_number or is_ndarray or is_tensor)], so it holds iff
    the value is not [None] and is a number, an array or a tensor. *)
Theorem is_valid_param_value_spec (value : pyval) :
  is_valid_param_value value = is_valid_param_value_guarded value
  /\ (is_valid_param_value value = true
      <-> is_not_none value = true
          /\ (is_number value = true \/ is_ndarray value = true
              \/ is_tensor value = true)).
Proof.
  assert (E : is_valid_param_value value = is_valid_param_value_guarded value)
    by (destruct value; reflexivity).
  split; [exact E|].
  rewrite E. unfold is_valid_param_value_guarded.
  rewrite andb_true_iff, !orb_true_iff. tauto.
Qed.

(** ** C2: [get_tensor_by_name] with the index omitted *)

Lemma has_colon_append (a b : string) :
  has_colon (a ++ b) = has_colon a || has_colon b.
Proof.
  induction a as [|c a IH]; simpl; [reflexivity|]. now rewrite IH, orb_assoc.
Qed.

Lemma split_colon_aux_app (name rest cur : string) :
  has_colon name = false ->
  split_colon_aux (name ++ rest) cur = split_colon_aux rest (cur ++ name).
Proof.
  revert cur. induction name as [|c name IH]; intros cur H; simpl.
  - now rewrite str_append_nil_r.
  - simpl in H. apply orb_false_iff in H as [Hc Hn].
    rewrite Hc, IH by exact Hn. now rewrite str_append_assoc.
Qed.

Fixpoint count_colons (s : string) : nat :=
  match s with
  | EmptyString => 0%nat
  | String c rest => ((if Ascii.eqb c ":" then 1 else 0) + count_colons rest)%nat
  end.

Lemma split_colon_aux_length (s cur : string) :
  List.length (split_colon_aux s cur) = S (count_colons s).
Proof.
  revert cur. induction s as [|c s IH]; intros cur; simpl; [reflexivity|].
  destruct (Ascii.eqb c ":"); simpl; rewrite IH; reflexivity.
Qed.

Lemma count_colons_app (a b : string) :
  count_colons (a ++ b) = (count_colons a + count_colons b)%nat.
Proof. induction a as [|c a IH]; simpl; [reflexivity|]. rewrite IH. lia. Qed.

Lemma has_colon_count (s : string) : has_colon s = true -> (1 <= count_colons s)%nat.
Proof.
  induction s as [|c s IH]; simpl; [discriminate|].
  destruct (Ascii.eqb c ":"); simpl; [lia|]. intros H. specialize (IH H). lia.
Qed.

(** For a colon-free [name] and a string [k] that [int()] reads as [n], the
    framework lookup of [name:k] finds output [n] of operation [name], or
    raises [KeyError]. *)
Lemma graph_get_colon_free (g : graph) (name k : string) (n : Z) :
  has_colon name = false -> has_colon k = false -> py_int k = Some n ->
  graph_get_tensor_by_name g (name ++ ":" ++ k)
  = match lookup_op name (graph_ops g) with
    | None => Raise (KeyError "The name refers to a Tensor which does not exist. The operation does not exist in the graph.")
    | Some outs =>
        match py_index outs n with
        | Some t => Ok t
        | None => Raise (KeyError "The name refers to a Tensor which does not exist. The operation exists but has fewer outputs.")
        end
    end.
Proof.
  intros Hn Hk Hi. unfold graph_get_tensor_by_name.
  rewrite has_colon_append. simpl has_colon at 2. rewrite orb_true_r.
  unfold split_colon. rewrite split_colon_aux_app by exact Hn. simpl.
  rewrite <- (str_append_nil_r k) at 1.
  rewrite split_colon_aux_app by exact Hk. simpl. rewrite Hi. reflexivity.
Qed.

(** [_get_tensor_by_name] on a colon-free name and an index [int()] reads
    never raises: it is [Some] of the framework's tensor, or [None] when the
    framework raises [KeyError]. *)
Lemma get_tensor_colon_free (g : graph) (name k : string) (n : Z) :
  has_colon name = false -> has_colon k = false -> py_int k = Some n ->
  _get_tensor_by_name name k g
  = Ok (match graph_get_tensor_by_name g (name ++ ":" ++ k) with
        | Ok t => Some t
        | Raise _ => None
        end).
Proof.
  intros Hn Hk Hi. unfold _get_tensor_by_name.
  rewrite (graph_get_colon_free g name k n Hn Hk Hi).
  destruct (lookup_op name (graph_ops g)) as [outs|]; [|reflexivity].
  destruct (py_index outs n); reflexivity.
Qed.

(** A name that already holds a colon gives [name:k] two colons or more,
    which the framework rejects with [ValueError]. *)
Lemma graph_get_colon_name (g : graph) (name k : string) :
  has_colon name = true ->
  graph_get_tensor_by_name g (name ++ ":" ++ k)
  = Raise (ValueError "The name {0} looks a like a Tensor name, but is not a valid one." [PyStr (name ++ ":" ++ k)]).
Proof.
  intros Hc.
  assert (L : (3 <= List.length (split_colon (name ++ ":" ++ k)))%nat).
  { unfold split_colon. rewrite split_colon_aux_length, !count_colons_app.
    apply has_colon_count in Hc. simpl. lia. }
  assert (Hs : has_colon (name ++ ":" ++ k) = true)
    by (rewrite has_colon_append, Hc; reflexivity).
  unfold graph_get_tensor_by_name.
  remember (name ++ ":" ++ k) as s eqn:E. clear E. rewrite Hs.
  destruct (split_colon s) as [|a [|b [|c rest]]]; simpl in L; try lia; reflexivity.
Qed.

Definition empty_graph : graph := mk_graph 0 [] [] false.

(** C2 (counterexample): in a graph with no operations no tensor exists at
    ["a:b:0"], yet [get_tensor_by_name("a:b")] does not return [None]: the
    framework rejects the malformed address with a [ValueError], which the
    helper lets through. *)
Lemma get_tensor_by_name_colon_name_raises :
  (forall t, graph_get_tensor_by_name empty_graph ("a:b" ++ ":" ++ "0") <> Ok t)
  /\ get_tensor_by_name "a:b" None empty_graph
     = Raise (ValueError "The name {0} looks a like a Tensor name, but is not a valid one." [PyStr "a:b:0"]).
Proof. split; [intros t H; discriminate H | reflexivity]. Qed.

(** C2 (amended): with the index omitted, for a name without a colon: with
    no tensor at [name:0] the result is [None]; with tensors at both [name:0]
    and [name:1] the call raises the ambiguous-tensor [ValueError] naming
    [name]; with a tensor at [name:0] only, that tensor is returned.  For a
    name that holds a colon the call raises the framework's [ValueError] on
    the malformed address [name:0], whatever the graph. *)
Theorem get_tensor_by_name_default_index (g : graph) (name : string) :
  (has_colon name = false ->
   ((forall t, graph_get_tensor_by_name g (name ++ ":" ++ "0") <> Ok t) ->
      get_tensor_by_name name None g = Ok None)
   /\ (forall t0 t1, graph_get_tensor_by_name g (name ++ ":" ++ "0") = Ok t0 ->
         graph_get_tensor_by_name g (name ++ ":" ++ "1") = Ok t1 ->
         get_tensor_by_name name None g = Raise (ValueError ambiguous_template [PyStr name]))
   /\ (forall t0, graph_get_tensor_by_name g (name ++ ":" ++ "0") = Ok t0 ->
         (forall t, graph_get_tensor_by_name g (name ++ ":" ++ "1") <> Ok t) ->
         get_tensor_by_name name None g = Ok (Some t0)))
  /\ (has_colon name = true ->
      get_tensor_by_name name None g
      = Raise (ValueError "The name {0} looks a like a Tensor name, but is not a valid one." [PyStr (name ++ ":" ++ "0")])).
Proof.
  split.
  - intros Hname.
    pose proof (get_tensor_colon_free g name "0" 0%Z Hname eq_refl eq_refl) as E0.
    pose proof (get_tensor_colon_free g name "1" 1%Z Hname eq_refl eq_refl) as E1.
    unfold get_tensor_by_name. rewrite E0, E1.
    remember (graph_get_tensor_by_name g (name ++ ":" ++ "0")) as r0 eqn:R0.
    remember (graph_get_tensor_by_name g (name ++ ":" ++ "1")) as r1 eqn:R1.
    clear R0 R1 E0 E1.
    split; [|split].
    + intros H. destruct r0 as [t|e]; [exfalso; exact (H t eq_refl) | reflexivity].
    + intros t0 t1 H0 H1. subst r0 r1. reflexivity.
    + intros t0 H0 H1. subst r0.
      destruct r1 as [t|e]; [exfalso; exact (H1 t eq_refl) | reflexivity].
  - intros Hc. unfold get_tensor_by_name, _get_tensor_by_name.
    rewrite (graph_get_colon_name g name "0" Hc). reflexivity.
Qed.

Definition foo_graph : graph :=
  mk_graph 1 [("foo", [TfTensor 10 Float64; TfTensor 11 Float64]); ("bar", [TfTensor 12 Float64])] [] false.

Lemma get_tensor_by_name_default_index_witness :
  has_colon "foo" = false
  /\ get_tensor_by_name "foo" None foo_graph = Raise (ValueError ambiguous_template [PyStr "foo"])
  /\ get_tensor_by_name "bar" None foo_graph = Ok (Some (TfTensor 12 Float64))
  /\ get_tensor_by_name "foo:1" None foo_graph
     = Raise (ValueError "The name {0} looks a like a Tensor name, but is not a valid one." [PyStr ("foo:1" ++ ":" ++ "0")]).
Proof.
  split; [reflexivity|]. split; [|split].
  - apply (proj1 (proj2 (proj1 (get_tensor_by_name_default_index foo_graph "foo") eq_refl))
             (TfTensor 10 Float64) (TfTensor 11 Float64)); reflexivity.
  - apply (proj2 (proj2 (proj1 (get_tensor_by_name_default_index foo_graph "bar") eq_refl))).
    + reflexivity.
    + intros t H. discriminate H.
  - exact (proj2 (get_tensor_by_name_default_index foo_graph "foo:1") eq_refl).
Defined.

(** ** C3: [normalize_dtype] *)

(** C3 (code defect): a wrapped [tf.DType] is first turned into its numpy
    scalar class by [as_numpy_dtype]; on that class [.dtype] is the class
    attribute of [np.generic], a getset descriptor, whose [.type] does not
    exist, so every wrapped input raises [AttributeError] and the
    re-wrapping branch is never reached.  Values that carry a dtype (numpy
    arrays) do follow the float / int / unknown switch. *)
Theorem normalize_dtype_wrapped_raises :
  (forall FLOAT_TYPE t,
      normalize_dtype FLOAT_TYPE (TfDType t)
      = Raise (AttributeError "'getset_descriptor' object has no attribute 'type'"))
  /\ (forall FLOAT_TYPE t shape,
      normalize_dtype FLOAT_TYPE (NpArray t shape)
      = match t with
        | Float32 | Float64 => Ok FLOAT_TYPE
        | Int16 | Int32 | Int64 => Ok (NpScalarType Int32)
        | _ => Raise (ValueError unknown_dtype_template [NpArray t shape])
        end).
Proof. split; intros FT t; [|intros shape]; destruct t; reflexivity. Qed.

(** ** C5, C6, C9: the trainables collection *)

Open Scope list_scope.
Open Scope nat_scope.

Lemma py_in_iff (v : nat) (l : list nat) : py_in v l = true <-> In v l.
Proof.
  unfold py_in. rewrite existsb_exists. split.
  - intros [x [Hx E]]. apply Nat.eqb_eq in E. now subst.
  - intros H. exists v. split; [exact H | apply Nat.eqb_refl].
Qed.

Lemma py_in_false_iff (v : nat) (l : list nat) : py_in v l = false <-> ~ In v l.
Proof. rewrite <- py_in_iff. destruct (py_in v l); split; congruence. Qed.

(** [list.remove] on a member drops its first occurrence. *)
Lemma list_remove_first (v : nat) (l : list nat) :
  In v l ->
  exists pre post, l = pre ++ v :: post /\ ~ In v pre
                   /\ list_remove v l = Ok (pre ++ post).
Proof.
  induction l as [|x xs IH]; intros H; [destruct H|].
  simpl. destruct (Nat.eqb x v) eqn:E.
  - apply Nat.eqb_eq in E. subst x. exists [], xs. repeat split; auto.
  - apply Nat.eqb_neq in E. destruct H as [H|H]; [congruence|].
    destruct (IH H) as [pre [post [Hl [Hpre Hr]]]].
    exists (x :: pre), post. rewrite Hr. simpl. subst xs. repeat split; auto.
    intros [Hx|Hx]; [congruence | exact (Hpre Hx)].
Qed.

Lemma count_occ_app_nat (l1 l2 : list nat) (v : nat) :
  count_occ Nat.eq_dec (l1 ++ l2) v = (count_occ Nat.eq_dec l1 v + count_occ Nat.eq_dec l2 v)%nat.
Proof. apply count_occ_app. Qed.

(** [add_to_trainables] by cases: a member leaves the graph as it is; an
    absent variable is appended, or the finalized graph raises. *)
Lemma add_to_trainables_cases (v : nat) (g : graph) :
  add_to_trainables v g
  = if py_in v (graph_trainables g) then Ok g
    else if graph_finalized g
         then Raise (RuntimeError "Graph is finalized and cannot be modified.")
         else Ok (set_trainables g (graph_trainables g ++ [v])).
Proof.
  unfold add_to_trainables, add_to_collection.
  now destruct (py_in v (graph_trainables g)).
Qed.

Definition dup_graph : graph := mk_graph 3 [] [7; 7] false.

(** C5 (counterexample): in a graph whose trainables list holds variable [7]
    twice, removing [7] succeeds and [7] is still a member afterwards. *)
Lemma remove_from_trainables_dup_keeps_member :
  exists g', remove_from_trainables 7 dup_graph = Ok g'
             /\ py_in 7 (graph_trainables g') = true.
Proof. exists (mk_graph 3 [] [7] false). split; reflexivity. Qed.

(** C5 (amended): removing an absent variable raises [GPflowError] carrying
    the variable and the graph's identity; removing a member drops its first
    occurrence from the stored list and keeps the rest in order, and the
    variable is no longer a member afterwards exactly when it occurred once. *)
Theorem remove_from_trainables_spec (v : nat) (g : graph) :
  (~ In v (graph_trainables g) ->
     remove_from_trainables v g = Raise (GPflowError not_found_template v (graph_id g)))
  /\ (In v (graph_trainables g) ->
      exists pre post,
        graph_trainables g = pre ++ v :: post /\ ~ In v pre
        /\ remove_from_trainables v g = Ok (set_trainables g (pre ++ post))
        /\ (In v (pre ++ post) <-> count_occ Nat.eq_dec (graph_trainables g) v <> 1%nat)).
Proof.
  unfold remove_from_trainables. split.
  - intros H. apply py_in_false_iff in H. now rewrite H.
  - intros H. destruct (list_remove_first v _ H) as [pre [post [Hl [Hpre Hr]]]].
    exists pre, post. rewrite (proj2 (py_in_iff _ _) H), Hr.
    repeat split; auto.
    + intros Hin. rewrite Hl, count_occ_app_nat. simpl.
      destruct (Nat.eq_dec v v) as [_|]; [|congruence].
      rewrite (proj1 (count_occ_not_In Nat.eq_dec pre v) Hpre).
      apply in_app_or in Hin as [Hin|Hin]; [contradiction|].
      apply (count_occ_In Nat.eq_dec) in Hin. lia.
    + intros Hc. rewrite Hl, count_occ_app_nat in Hc. simpl in Hc.
      destruct (Nat.eq_dec v v) as [_|]; [|congruence].
      rewrite (proj1 (count_occ_not_In Nat.eq_dec pre v) Hpre) in Hc.
      apply in_or_app. right. apply (count_occ_In Nat.eq_dec). lia.
Qed.

Lemma remove_from_trainables_spec_witness :
  ~ In 5 (graph_trainables dup_graph) /\ In 7 (graph_trainables dup_graph)
  /\ remove_from_trainables 5 dup_graph = Raise (GPflowError not_found_template 5 3)
  /\ exists pre post,
       graph_trainables dup_graph = pre ++ 7 :: post /\ ~ In 7 pre
       /\ remove_from_trainables 7 dup_graph = Ok (set_trainables dup_graph (pre ++ post))
       /\ (In 7 (pre ++ post) <-> count_occ Nat.eq_dec (graph_trainables dup_graph) 7 <> 1%nat).
Proof.
  assert (H5 : ~ In 5 (graph_trainables dup_graph)) by (simpl; lia).
  assert (H7 : In 7 (graph_trainables dup_graph)) by (simpl; auto).
  split; [exact H5|]. split; [exact H7|]. split.
  - exact (proj1 (remove_from_trainables_spec 5 dup_graph) H5).
  - exact (proj2 (remove_from_trainables_spec 7 dup_graph) H7).
Defined.

(** C6 (counterexample): in a graph whose trainables list already holds
    variable [7] twice, two calls of [add_to_trainables 7] succeed and leave
    both occurrences, not exactly one. *)
Lemma add_to_trainables_twice_dup :
  exists g1 g2, add_to_trainables 7 dup_graph = Ok g1
                /\ add_to_trainables 7 g1 = Ok g2
                /\ count_occ Nat.eq_dec (graph_trainables g2) 7 = 2%nat.
Proof. exists dup_graph, dup_graph. split; [|split]; reflexivity. Qed.

(** C6 (amended): [add_to_trainables] returns the graph unchanged, without
    error, when [v] is already a member; when [v] is absent it appends [v],
    or raises the framework's [RuntimeError] if the graph is finalized.
    Whenever a call succeeds, a second call succeeds and changes nothing, and
    [v] then occurs [max 1 c] times, [c] its count before: exactly once
    whenever it occurred at most once before. *)
Theorem add_to_trainables_idempotent (v : nat) (g : graph) :
  (In v (graph_trainables g) -> add_to_trainables v g = Ok g)
  /\ (~ In v (graph_trainables g) -> graph_finalized g = false ->
      add_to_trainables v g = Ok (set_trainables g (graph_trainables g ++ [v])))
  /\ (~ In v (graph_trainables g) -> graph_finalized g = true ->
      add_to_trainables v g
      = Raise (RuntimeError "Graph is finalized and cannot be modified."))
  /\ (forall g1, add_to_trainables v g = Ok g1 ->
        add_to_trainables v g1 = Ok g1
        /\ count_occ Nat.eq_dec (graph_trainables g1) v
           = Nat.max 1 (count_occ Nat.eq_dec (graph_trainables g) v)).
Proof.
  rewrite !add_to_trainables_cases.
  split; [intros H; now rewrite (proj2 (py_in_iff _ _) H)|].
  split; [intros H Hf; now rewrite (proj2 (py_in_false_iff _ _) H), Hf|].
  split; [intros H Hf; now rewrite (proj2 (py_in_false_iff _ _) H), Hf|].
  intros g1 H1. rewrite add_to_trainables_cases.
  destruct (py_in v (graph_trainables g)) eqn:E.
  - injection H1 as <-. rewrite E. split; [reflexivity|].
    apply py_in_iff, (count_occ_In Nat.eq_dec) in E. lia.
  - destruct (graph_finalized g); [discriminate H1|]. injection H1 as <-.
    simpl. assert (Hin : py_in v (graph_trainables g ++ [v]) = true)
      by (apply py_in_iff; apply in_or_app; right; left; reflexivity).
    rewrite Hin. split; [reflexivity|].
    apply py_in_false_iff, (count_occ_not_In Nat.eq_dec) in E.
    rewrite count_occ_app_nat, E. simpl.
    destruct (Nat.eq_dec v v); [reflexivity | congruence].
Qed.

Lemma add_to_trainables_idempotent_witness :
  ~ In 3 [1; 2]
  /\ add_to_trainables 3 (mk_graph 0 [] [1; 2] false) = Ok (mk_graph 0 [] [1; 2; 3] false)
  /\ add_to_trainables 3 (mk_graph 0 [] [1; 2] true)
     = Raise (RuntimeError "Graph is finalized and cannot be modified.")
  /\ add_to_trainables 2 (mk_graph 0 [] [1; 2] true) = Ok (mk_graph 0 [] [1; 2] true).
Proof.
  assert (H3 : ~ In 3 [1; 2]) by (simpl; lia).
  split; [exact H3|]. split; [|split].
  - exact (proj1 (proj2 (add_to_trainables_idempotent 3 (mk_graph 0 [] [1; 2] false))) H3 eq_refl).
  - exact (proj1 (proj2 (proj2 (add_to_trainables_idempotent 3 (mk_graph 0 [] [1; 2] true)))) H3 eq_refl).
  - apply (proj1 (add_to_trainables_idempotent 2 (mk_graph 0 [] [1; 2] true))). simpl; auto.
Defined.

(** C9: if the trainables list has no duplicates, a successful
    [add_to_trainables] keeps it so, and a successful
    [remove_from_trainables] keeps it so while dropping exactly the first
    occurrence of the variable. *)
Theorem trainables_nodup_preserved (v : nat) (g : graph)
  (Hnd : NoDup (graph_trainables g)) :
  (forall g1, add_to_trainables v g = Ok g1 -> NoDup (graph_trainables g1))
  /\ (forall g', remove_from_trainables v g = Ok g' ->
        NoDup (graph_trainables g')
        /\ exists pre post, graph_trainables g = pre ++ v :: post /\ ~ In v pre
                            /\ graph_trainables g' = pre ++ post).
Proof.
  split.
  - intros g1 H1. rewrite add_to_trainables_cases in H1.
    destruct (py_in v (graph_trainables g)) eqn:E;
      [injection H1 as <-; exact Hnd|].
    destruct (graph_finalized g); [discriminate H1|]. injection H1 as <-. simpl.
    apply py_in_false_iff in E. apply NoDup_app; auto using NoDup_cons, NoDup_nil.
    + intros x Hx [Hy|[]]. subst. contradiction.
  - intros g' H. unfold remove_from_trainables in H.
    destruct (py_in v (graph_trainables g)) eqn:E; [|discriminate H].
    apply py_in_iff in E.
    destruct (list_remove_first v _ E) as [pre [post [Hl [Hpre Hr]]]].
    simpl in H. rewrite Hr in H. simpl in H. injection H as <-.
    split.
    + simpl. rewrite Hl in Hnd. exact (NoDup_remove_1 pre post v Hnd).
    + exists pre, post. repeat split; auto.
Qed.

Lemma trainables_nodup_preserved_witness :
  NoDup [1; 2; 3]
  /\ add_to_trainables 4 (mk_graph 0 [] [1; 2; 3] false) = Ok (mk_graph 0 [] [1; 2; 3; 4] false)
  /\ NoDup [1; 2; 3; 4].
Proof.
  assert (H : NoDup [1; 2; 3]) by (repeat constructor; simpl; lia).
  split; [exact H|]. split; [reflexivity|].
  exact (proj1 (trainables_nodup_preserved 4 (mk_graph 0 [] [1; 2; 3] false) H)
           (mk_graph 0 [] [1; 2; 3; 4] false) eq_refl).
Defined.

(** ** C1: [vec_to_tri] *)

Section ListAlter.
Context {A : Type}.

Lemma list_alter_length (f : A -> A) (i : nat) (l : list A) :
  List.length (list_alter f i l) = List.length l.
Proof.
  revert i. induction l as [|x xs IH]; intros [|i]; simpl; auto.
Qed.

Lemma nth_list_alter (f : A -> A) (i n : nat) (l : list A) (d : A) :
  i < List.length l ->
  nth n (list_alter f i l) d = if Nat.eqb n i then f (nth n l d) else nth n l d.
Proof.
  revert i n. induction l as [|x xs IH]; intros i n H; simpl in H; [lia|].
  destruct i as [|i], n as [|n]; simpl; auto.
  apply IH. lia.
Qed.
End ListAlter.

Lemma nth_repeat_any {A} (x d : A) (m n : nat) :
  nth n (repeat x m) d = if Nat.ltb n m then x else d.
Proof.
  revert n. induction m as [|m IH]; intros [|n]; simpl; auto.
Qed.

(** An [N] by [N] matrix. *)
Definition square (N : nat) (m : matrix) : Prop :=
  List.length m = N /\ Forall (fun r => List.length r = N) m.

Lemma zeros_square (N : nat) : square N (zeros N).
Proof.
  split; [apply repeat_length|]. apply Forall_forall. intros r Hr.
  apply repeat_spec in Hr. subst. apply repeat_length.
Qed.

Lemma mat_get_zeros (N a b : nat) : mat_get (zeros N) a b = 0%Z.
Proof.
  unfold mat_get, zeros. rewrite nth_repeat_any.
  destruct (Nat.ltb a N); [rewrite nth_repeat_any; now destruct (Nat.ltb b N)|].
  now destruct b.
Qed.

Lemma add_at_square (N : nat) (m : matrix) (p : (nat * nat) * Z) :
  square N m -> square N (add_at m p).
Proof.
  destruct p as [[i j] u]. intros [Hl Hr]. unfold add_at. split.
  - now rewrite list_alter_length.
  - revert i. clear Hl. induction Hr as [|r rs Hr0 Hrs IH]; intros [|i]; simpl;
      constructor; auto. now rewrite list_alter_length.
Qed.

(** [idx = (a, b)] *)
Definition idx_eqb (p q : nat * nat) : bool :=
  Nat.eqb (fst p) (fst q) && Nat.eqb (snd p) (snd q).

Lemma idx_eqb_true (p q : nat * nat) : idx_eqb p q = true <-> p = q.
Proof.
  destruct p as [a b], q as [c d]. unfold idx_eqb. simpl.
  rewrite andb_true_iff, !Nat.eqb_eq. split; [intros [-> ->]; reflexivity|].
  intros H. injection H. auto.
Qed.

Lemma mat_get_add_at (N : nat) (m : matrix) (i j a b : nat) (u : Z) :
  square N m -> i < N -> j < N ->
  mat_get (add_at m ((i, j), u)) a b
  = (mat_get m a b + if idx_eqb (i, j) (a, b) then u else 0)%Z.
Proof.
  intros [Hl Hr] Hi Hj. unfold mat_get, add_at, idx_eqb. simpl.
  rewrite nth_list_alter by lia.
  destruct (Nat.eqb a i) eqn:Ea; [apply Nat.eqb_eq in Ea; subst a|].
  - rewrite Nat.eqb_refl. simpl.
    assert (Hrow : List.length (nth i m []) = N).
    { rewrite Forall_forall in Hr. apply Hr, nth_In. lia. }
    rewrite nth_list_alter by lia.
    destruct (Nat.eqb b j) eqn:Eb; [apply Nat.eqb_eq in Eb; subst b|].
    + now rewrite Nat.eqb_refl.
    + rewrite Nat.eqb_sym, Eb. lia.
  - rewrite Nat.eqb_sym, Ea. simpl. lia.
Qed.

(** The sum of the updates aimed at [(a, b)]. *)
Definition sum_at (pairs : list ((nat * nat) * Z)) (ab : nat * nat) : Z :=
  fold_right (fun p acc => ((if idx_eqb (fst p) ab then snd p else 0) + acc)%Z) 0%Z pairs.

Lemma fold_add_at_get (N : nat) (pairs : list ((nat * nat) * Z)) (m : matrix) (a b : nat) :
  square N m ->
  Forall (fun p => fst (fst p) < N /\ snd (fst p) < N) pairs ->
  mat_get (fold_left add_at pairs m) a b = (mat_get m a b + sum_at pairs (a, b))%Z.
Proof.
  revert m. induction pairs as [|[[i j] u] ps IH]; intros m Hm Hin;
    [unfold sum_at; simpl; lia|].
  inversion Hin as [|? ? [Hi Hj] Hps]; subst. simpl in Hi, Hj.
  change (fold_left add_at (((i, j), u) :: ps) m)
    with (fold_left add_at ps (add_at m ((i, j), u))).
  rewrite IH by auto using add_at_square.
  rewrite (mat_get_add_at N m i j a b u Hm Hi Hj). unfold sum_at. simpl. lia.
Qed.

Lemma fold_add_at_square (N : nat) (pairs : list ((nat * nat) * Z)) (m : matrix) :
  square N m -> square N (fold_left add_at pairs m).
Proof.
  revert m. induction pairs as [|p ps IH]; intros m Hm; simpl; auto using add_at_square.
Qed.

Lemma sum_at_not_in (idxs : list (nat * nat)) (vals : list Z) (ab : nat * nat) :
  ~ In ab idxs -> sum_at (combine idxs vals) ab = 0%Z.
Proof.
  revert vals. induction idxs as [|p ps IH]; intros [|v vs] H; simpl; auto.
  destruct (idx_eqb p ab) eqn:E.
  - apply idx_eqb_true in E. subst. exfalso. apply H. left. reflexivity.
  - rewrite IH; [reflexivity|]. intros Hin. apply H. right. exact Hin.
Qed.

Lemma sum_at_nth (idxs : list (nat * nat)) (vals : list Z) (k : nat) :
  NoDup idxs -> List.length vals = List.length idxs -> k < List.length idxs ->
  sum_at (combine idxs vals) (nth k idxs (0, 0)) = nth k vals 0%Z.
Proof.
  revert vals k. induction idxs as [|p ps IH]; intros vals k Hnd Hlen Hk;
    simpl in Hk; [lia|].
  destruct vals as [|v vs]; simpl in Hlen; [lia|].
  inversion Hnd as [|? ? Hp Hps]; subst.
  destruct k as [|k]; simpl.
  - assert (E : idx_eqb p p = true) by (apply idx_eqb_true; reflexivity).
    rewrite E, sum_at_not_in by exact Hp. lia.
  - destruct (idx_eqb p (nth k ps (0, 0))) eqn:E.
    + apply idx_eqb_true in E. exfalso. apply Hp. rewrite E. apply nth_In. lia.
    + rewrite IH by (auto; lia). lia.
Qed.

(** The row-major enumeration of the lower triangle, row by row. *)
Definition tril_rows (N : nat) : list (nat * nat) :=
  flat_map (fun i => map (fun j => (i, j)) (seq 0 (S i))) (seq 0 N).

Lemma filter_all_true {A} (f : A -> bool) (l : list A) :
  (forall x, In x l -> f x = true) -> filter f l = l.
Proof.
  induction l as [|x xs IH]; intros H; simpl; auto.
  rewrite H by (left; reflexivity). f_equal. apply IH. intros y Hy. apply H. now right.
Qed.

Lemma filter_all_false {A} (f : A -> bool) (l : list A) :
  (forall x, In x l -> f x = false) -> filter f l = [].
Proof.
  induction l as [|x xs IH]; intros H; simpl; auto.
  rewrite H by (left; reflexivity). apply IH. intros y Hy. apply H. now right.
Qed.

(** Row [i] of the [tri] mask keeps columns [0..i]. *)
Lemma filter_tri_row (N i : nat) :
  i < N -> filter (tri N i) (seq 0 N) = seq 0 (S i).
Proof.
  intros Hi. replace N with (S i + (N - S i)) at 2 by lia.
  rewrite seq_app, filter_app.
  rewrite filter_all_true, filter_all_false; [apply app_nil_r| |].
  - intros j Hj. apply in_seq in Hj. apply Nat.leb_gt. lia.
  - intros j Hj. apply in_seq in Hj. apply Nat.leb_le. lia.
Qed.

Lemma tril_indices_rows (N : nat) : tril_indices N = tril_rows N.
Proof.
  unfold tril_indices, tril_rows. rewrite !flat_map_concat_map. f_equal.
  apply map_ext_in. intros i Hi. apply in_seq in Hi.
  rewrite filter_tri_row by lia. reflexivity.
Qed.

Lemma tril_rows_S (N : nat) :
  tril_rows (S N) = tril_rows N ++ map (fun j => (N, j)) (seq 0 (S N)).
Proof.
  unfold tril_rows. rewrite (seq_S N 0) at 1. rewrite flat_map_app.
  cbn [flat_map]. now rewrite app_nil_r.
Qed.

Lemma tri_num_S (N : nat) : tri_num (S N) = tri_num N + S N.
Proof.
  unfold tri_num.
  replace (S N * (S N + 1)) with (N * (N + 1) + S N * 2) by nia.
  now rewrite Nat.div_add.
Qed.

Lemma tril_rows_length (N : nat) : List.length (tril_rows N) = tri_num N.
Proof.
  induction N as [|N IH]; [reflexivity|].
  rewrite tril_rows_S, length_app, length_map, length_seq, IH, tri_num_S. reflexivity.
Qed.

Lemma in_tril_rows (N i j : nat) : In (i, j) (tril_rows N) <-> j <= i < N.
Proof.
  unfold tril_rows. rewrite in_flat_map. split.
  - intros [i' [Hi' Hin]]. apply in_seq in Hi'. apply in_map_iff in Hin.
    destruct Hin as [j' [E Hj']]. injection E as <- <-. apply in_seq in Hj'. lia.
  - intros H. exists i. split; [apply in_seq; lia|].
    apply in_map_iff. exists j. split; [reflexivity | apply in_seq; lia].
Qed.

Lemma NoDup_map_row (i : nat) (l : list nat) :
  NoDup l -> NoDup (map (fun j => (i, j)) l).
Proof.
  induction 1 as [|x xs Hx Hxs IH]; simpl; constructor; auto.
  intros Hin. apply in_map_iff in Hin. destruct Hin as [y [E Hy]].
  injection E as ->. contradiction.
Qed.

Lemma tril_rows_NoDup (N : nat) : NoDup (tril_rows N).
Proof.
  induction N as [|N IH]; [constructor|].
  rewrite tril_rows_S. apply NoDup_app; auto using NoDup_map_row, seq_NoDup.
  intros [a b] H1 H2. apply in_tril_rows in H1.
  apply in_map_iff in H2. destruct H2 as [j [E _]]. injection E as -> ->. lia.
Qed.



(** The scatter of one packed vector onto the lower triangle. *)
Lemma scatter_tril (N : nat) (vec : list Z) :
  List.length vec = tri_num N ->
  exists m, scatter_nd (tril_indices N) N vec = Ok m /\ square N m
            /\ forall a b, mat_get m a b = sum_at (combine (tril_indices N) vec) (a, b).
Proof.
  intros Hlen. unfold scatter_nd. rewrite tril_indices_rows.
  rewrite Hlen, tril_rows_length, Nat.eqb_refl. simpl.
  assert (Hrange : forallb (fun ij => Nat.ltb (fst ij) N && Nat.ltb (snd ij) N)
                     (tril_rows N) = true).
  { apply forallb_forall. intros [i j] Hin. apply in_tril_rows in Hin.
    apply andb_true_iff. split; apply Nat.ltb_lt; simpl; lia. }
  rewrite Hrange. simpl.
  eexists. split; [reflexivity|]. split.
  - apply fold_add_at_square, zeros_square.
  - intros a b. rewrite (fold_add_at_get N) by
      (apply zeros_square ||
       (apply Forall_forall; intros [[i j] u] Hin; apply in_combine_l, in_tril_rows in Hin;
        simpl; lia)).
    rewrite mat_get_zeros. lia.
Qed.







(** * Further properties of the module *)

(** ** The trainables collection *)

Lemma list_remove_last (v : nat) (l : list nat) :
  ~ In v l -> list_remove v (l ++ [v]) = Ok l.
Proof.
  induction l as [|x xs IH]; intros H; simpl; [now rewrite Nat.eqb_refl|].
  destruct (Nat.eqb x v) eqn:E.
  - apply Nat.eqb_eq in E. subst. exfalso. apply H. now left.
  - rewrite IH by (intros Hin; apply H; now right). reflexivity.
Qed.

Lemma set_trainables_same (g : graph) : set_trainables g (graph_trainables g) = g.
Proof. now destruct g. Qed.

(** On a graph that is not finalized, adding an absent variable succeeds,
    and removing it again succeeds and gives back the graph as it was read:
    same identity, operations and finalization, and the trainables list as
    [get_collection] returned it before the add. *)
Theorem remove_after_add (v : nat) (g : graph)
  (Habs : ~ In v (graph_trainables g)) (Hfin : graph_finalized g = false) :
  exists g1, add_to_trainables v g = Ok g1
             /\ exists g2, remove_from_trainables v g1 = Ok g2
                           /\ graph_id g2 = graph_id g /\ graph_ops g2 = graph_ops g
                           /\ graph_finalized g2 = graph_finalized g
                           /\ graph_trainables g2 = graph_trainables g.
Proof.
  rewrite add_to_trainables_cases.
  rewrite (proj2 (py_in_false_iff _ _) Habs), Hfin.
  eexists. split; [reflexivity|].
  unfold remove_from_trainables. simpl.
  assert (Hin : py_in v (graph_trainables g ++ [v]) = true)
    by (apply py_in_iff, in_or_app; right; now left).
  rewrite Hin. simpl. rewrite list_remove_last by exact Habs. simpl.
  eexists. split; [reflexivity|]. unfold set_trainables. simpl.
  rewrite Hfin. repeat split; reflexivity.
Qed.

Lemma remove_after_add_witness :
  ~ In 9 (graph_trainables dup_graph) /\ graph_finalized dup_graph = false
  /\ exists g1, add_to_trainables 9 dup_graph = Ok g1
               /\ exists g2, remove_from_trainables 9 g1 = Ok g2
                             /\ graph_trainables g2 = [7; 7].
Proof.
  assert (H : ~ In 9 (graph_trainables dup_graph)) by (simpl; lia).
  split; [exact H|]. split; [reflexivity|].
  destruct (remove_after_add 9 dup_graph H eq_refl)
    as [g1 [H1 [g2 [H2 [_ [_ [_ Ht]]]]]]].
  exists g1. split; [exact H1|]. exists g2. split; [exact H2 | exact Ht].
Defined.

(** A successful [add_to_trainables] only ever appends at the end of the
    list, keeps the graph's identity, operations and finalization, and
    afterwards the members are the old ones plus [v]; a failing one raises
    the framework's [RuntimeError], and only on a finalized graph lacking
    [v]. *)
Theorem add_to_trainables_appends (v : nat) (g : graph) :
  (forall g1, add_to_trainables v g = Ok g1 ->
     graph_id g1 = graph_id g
     /\ graph_ops g1 = graph_ops g
     /\ graph_finalized g1 = graph_finalized g
     /\ (exists suffix, graph_trainables g1 = graph_trainables g ++ suffix
                        /\ incl suffix [v])
     /\ (forall w, In w (graph_trainables g1) <-> w = v \/ In w (graph_trainables g)))
  /\ (forall e, add_to_trainables v g = Raise e ->
        e = RuntimeError "Graph is finalized and cannot be modified."
        /\ graph_finalized g = true /\ ~ In v (graph_trainables g)).
Proof.
  rewrite add_to_trainables_cases.
  destruct (py_in v (graph_trainables g)) eqn:E.
  - split; [|intros e H; discriminate H].
    intros g1 H. injection H as <-.
    apply py_in_iff in E. repeat split; auto.
    + exists []. split; [now rewrite app_nil_r | intros x []].
    + intros [->|H]; auto.
  - destruct (graph_finalized g) eqn:F.
    + split; [intros g1 H; discriminate H|].
      intros e H. injection H as <-. apply py_in_false_iff in E. auto.
    + split; [|intros e H; discriminate H].
      intros g1 H. injection H as <-. simpl. repeat split; auto.
      * exists [v]. split; [reflexivity | intros x H; exact H].
      * intros H. apply in_app_or in H as [H|[H|[]]]; auto.
      * intros [->|H]; apply in_or_app; [right; now left | now left].
Qed.

Lemma add_to_trainables_appends_witness :
  graph_trainables (mk_graph 0 [] [1; 2; 3] false) = [1; 2] ++ [3]
  /\ (RuntimeError "Graph is finalized and cannot be modified." =
      RuntimeError "Graph is finalized and cannot be modified." /\ true = true /\ ~ In 3 [1; 2]).
Proof.
  split.
  - destruct (proj1 (add_to_trainables_appends 3 (mk_graph 0 [] [1; 2] false))
                (mk_graph 0 [] [1; 2; 3] false) eq_refl) as [_ [_ [_ [[suf [Hs _]] _]]]].
    simpl in Hs |- *. rewrite Hs. reflexivity.
  - exact (proj2 (add_to_trainables_appends 3 (mk_graph 0 [] [1; 2] true))
             (RuntimeError "Graph is finalized and cannot be modified.") eq_refl).
Defined.

(** A successful removal keeps the graph's identity and operations, lowers
    the count of [v] by exactly one and leaves every other variable's count
    unchanged. *)
Theorem remove_from_trainables_counts (v : nat) (g g' : graph)
  (Hok : remove_from_trainables v g = Ok g') :
  graph_id g' = graph_id g
  /\ graph_ops g' = graph_ops g
  /\ count_occ Nat.eq_dec (graph_trainables g') v
     = count_occ Nat.eq_dec (graph_trainables g) v - 1
  /\ 1 <= count_occ Nat.eq_dec (graph_trainables g) v
  /\ (forall w, w <> v ->
        count_occ Nat.eq_dec (graph_trainables g') w
        = count_occ Nat.eq_dec (graph_trainables g) w).
Proof.
  unfold remove_from_trainables in Hok.
  destruct (py_in v (graph_trainables g)) eqn:E; [|discriminate Hok].
  apply py_in_iff in E.
  destruct (list_remove_first v _ E) as [pre [post [Hl [Hpre Hr]]]].
  simpl in Hok. rewrite Hr in Hok. simpl in Hok. injection Hok as <-.
  simpl. rewrite Hl, !count_occ_app_nat. simpl.
  destruct (Nat.eq_dec v v) as [_|]; [|congruence].
  split; [reflexivity|]. split; [reflexivity|]. split; [lia|]. split; [lia|].
  intros w Hw. rewrite !count_occ_app_nat. simpl.
  destruct (Nat.eq_dec v w); [congruence | reflexivity].
Qed.

Lemma remove_from_trainables_counts_witness :
  remove_from_trainables 7 dup_graph = Ok (mk_graph 3 [] [7] false)
  /\ count_occ Nat.eq_dec (graph_trainables (mk_graph 3 [] [7] false)) 7 = 1.
Proof.
  assert (H : remove_from_trainables 7 dup_graph = Ok (mk_graph 3 [] [7] false))
    by reflexivity.
  split; [exact H|].
  destruct (remove_from_trainables_counts 7 dup_graph _ H) as [_ [_ [Hc _]]].
  rewrite Hc. reflexivity.
Defined.

(** A successful removal keeps the graph's finalization; on a graph that is
    not finalized, re-adding the variable right after removing it succeeds
    and restores the set of members of the collection.  (On a finalized
    graph the removal still succeeds, but the re-add of a variable that
    occurred once raises.) *)
Theorem add_after_remove_members (v : nat) (g g' : graph)
  (Hok : remove_from_trainables v g = Ok g') :
  graph_finalized g' = graph_finalized g
  /\ (graph_finalized g = false ->
      exists g'', add_to_trainables v g' = Ok g''
                  /\ forall w, In w (graph_trainables g'') <-> In w (graph_trainables g)).
Proof.
  unfold remove_from_trainables in Hok.
  destruct (py_in v (graph_trainables g)) eqn:E; [|discriminate Hok].
  apply py_in_iff in E.
  destruct (list_remove_first v _ E) as [pre [post [Hl [Hpre Hr]]]].
  simpl in Hok. rewrite Hr in Hok. simpl in Hok. injection Hok as <-.
  split; [reflexivity|]. intros Hfin.
  rewrite add_to_trainables_cases. simpl. rewrite Hfin.
  destruct (py_in v (pre ++ post)) eqn:E'.
  - eexists. split; [reflexivity|]. intros w. simpl. rewrite Hl, !in_app_iff. simpl.
    apply py_in_iff, in_app_iff in E'. split.
    + intros [H|H]; auto.
    + intros [H|[<-|H]]; auto.
  - eexists. split; [reflexivity|]. intros w. simpl. rewrite Hl, !in_app_iff. simpl. split.
    + intros [[H|H]|[->|[]]]; auto.
    + intros [H|[->|H]]; auto.
Qed.

Lemma add_after_remove_members_witness :
  remove_from_trainables 1 (mk_graph 0 [] [1; 2] false) = Ok (mk_graph 0 [] [2] false)
  /\ add_to_trainables 1 (mk_graph 0 [] [2] false) = Ok (mk_graph 0 [] [2; 1] false)
  /\ In 1 [2; 1].
Proof.
  assert (H : remove_from_trainables 1 (mk_graph 0 [] [1; 2] false)
              = Ok (mk_graph 0 [] [2] false)) by reflexivity.
  split; [exact H|]. split; [reflexivity|].
  destruct (proj2 (add_after_remove_members 1 _ _ H) eq_refl) as [g'' [Hadd Hmem]].
  simpl in Hadd. injection Hadd as <-. apply (Hmem 1). simpl. now left.
Defined.

(** ** Tensor lookup in terms of the graph's operations *)

(** With an explicit index [k] that [int()] reads as [n] and a colon-free
    name, [get_tensor_by_name] never raises: it returns [outputs[n]] of the
    operation [name] (negative [n] counting from the end), or [None] when the
    operation is missing or [n] is out of range. *)
Theorem get_tensor_by_name_explicit_index (g : graph) (name k : string) (n : Z)
  (Hname : has_colon name = false) (Hk : has_colon k = false) (Hn : py_int k = Some n) :
  get_tensor_by_name name (Some k) g
  = Ok (match lookup_op name (graph_ops g) with
        | Some outs => py_index outs n
        | None => None
        end).
Proof.
  unfold get_tensor_by_name. rewrite (get_tensor_colon_free g name k n Hname Hk Hn).
  rewrite (graph_get_colon_free g name k n Hname Hk Hn).
  destruct (lookup_op name (graph_ops g)) as [outs|]; [|reflexivity].
  now destruct (py_index outs n).
Qed.

Lemma get_tensor_by_name_explicit_index_witness :
  get_tensor_by_name "foo" (Some "1") foo_graph = Ok (Some (TfTensor 11 Float64))
  /\ get_tensor_by_name "foo" (Some "2") foo_graph = Ok None
  /\ get_tensor_by_name "foo" (Some " +0 ") foo_graph = Ok (Some (TfTensor 10 Float64)).
Proof.
  split; [|split].
  - exact (get_tensor_by_name_explicit_index foo_graph "foo" "1" 1 eq_refl eq_refl eq_refl).
  - exact (get_tensor_by_name_explicit_index foo_graph "foo" "2" 2 eq_refl eq_refl eq_refl).
  - exact (get_tensor_by_name_explicit_index foo_graph "foo" " +0 " 0 eq_refl eq_refl eq_refl).
Defined.

Lemma nth_error_last_cons {A} (x : A) (xs : list A) (d : A) :
  nth_error (x :: xs) (List.length xs) = Some (last (x :: xs) d).
Proof.
  revert x. induction xs as [|y ys IH]; intros x; [reflexivity|].
  cbn [List.length nth_error]. rewrite IH. reflexivity.
Qed.

(** The index ["-1"] is read by [int()] as [-1], so
    [get_tensor_by_name(name, "-1")] returns the last output of the
    operation [name], and [None] when it has no outputs or does not exist. *)
Theorem get_tensor_by_name_last_output (g : graph) (name : string)
  (Hname : has_colon name = false) :
  get_tensor_by_name name (Some "-1") g
  = Ok (match lookup_op name (graph_ops g) with
        | Some (t :: ts) => Some (last (t :: ts) PyNone)
        | _ => None
        end).
Proof.
  unfold get_tensor_by_name.
  rewrite (get_tensor_colon_free g name "-1" (-1) Hname eq_refl eq_refl).
  rewrite (graph_get_colon_free g name "-1" (-1) Hname eq_refl eq_refl).
  destruct (lookup_op name (graph_ops g)) as [[|t ts]|]; [reflexivity| |reflexivity].
  unfold py_index. cbn [List.length].
  replace (0 <=? -1)%Z with false by reflexivity.
  replace (0 <=? Z.of_nat (S (List.length ts)) + -1)%Z with true
    by (symmetry; apply Z.leb_le; lia).
  replace (Z.to_nat (Z.of_nat (S (List.length ts)) + -1)) with (List.length ts) by lia.
  rewrite (nth_error_last_cons t ts PyNone). reflexivity.
Qed.

Lemma get_tensor_by_name_last_output_witness :
  get_tensor_by_name "foo" (Some "-1") foo_graph = Ok (Some (TfTensor 11 Float64)).
Proof. exact (get_tensor_by_name_last_output foo_graph "foo" eq_refl). Defined.

(** With the index omitted and a colon-free name, the outcome depends only
    on how many outputs the operation [name] has: none (or no such
    operation) gives [None], exactly one gives that output, two or more
    raise the ambiguous-tensor [ValueError]. *)
Theorem get_tensor_by_name_by_outputs (g : graph) (name : string)
  (Hname : has_colon name = false) :
  get_tensor_by_name name None g
  = match lookup_op name (graph_ops g) with
    | None | Some [] => Ok None
    | Some [t] => Ok (Some t)
    | Some (_ :: _ :: _) => Raise (ValueError ambiguous_template [PyStr name])
    end.
Proof.
  unfold get_tensor_by_name.
  rewrite (get_tensor_colon_free g name "0" 0%Z Hname eq_refl eq_refl).
  rewrite (get_tensor_colon_free g name "1" 1%Z Hname eq_refl eq_refl).
  rewrite (graph_get_colon_free g name "0" 0%Z Hname eq_refl eq_refl).
  rewrite (graph_get_colon_free g name "1" 1%Z Hname eq_refl eq_refl).
  destruct (lookup_op name (graph_ops g)) as [[|t0 [|t1 rest]]|]; reflexivity.
Qed.

Lemma get_tensor_by_name_by_outputs_witness :
  get_tensor_by_name "bar" None foo_graph = Ok (Some (TfTensor 12 Float64))
  /\ get_tensor_by_name "baz" None foo_graph = Ok None.
Proof.
  split.
  - exact (get_tensor_by_name_by_outputs foo_graph "bar" eq_refl).
  - exact (get_tensor_by_name_by_outputs foo_graph "baz" eq_refl).
Defined.

(** ** Which values [normalize_dtype] accepts *)

(** Python values ([None], [bool], [int], [float], [complex], [str],
    [bytes], [list], other [numbers.Number] instances, [memoryview]) and
    numpy scalar classes. *)
Definition python_value_or_scalar_class (v : pyval) : bool :=
  match v with
  | PyNone | PyBool _ | PyInt _ | PyFloat _ | PyComplex _ _ | PyStr _ | PyBytes _
  | PyList _ | PyNumber _ | PyMemoryview _ | NpScalarType _ => true
  | _ => false
  end.

(** [normalize_dtype] raises [AttributeError] on every Python value and on
    every numpy scalar class (such as [np.float64] itself): these have no
    [.dtype] whose [.type] exists.  A numpy scalar instance follows the same
    float / int / unknown switch as an array of its type. *)
Theorem normalize_dtype_python_values (FLOAT_TYPE : pyval) :
  (forall v, python_value_or_scalar_class v = true ->
     exists msg, normalize_dtype FLOAT_TYPE v = Raise (AttributeError msg))
  /\ (forall t, normalize_dtype FLOAT_TYPE (NpScalar t)
        = match t with
          | Float32 | Float64 => Ok FLOAT_TYPE
          | Int16 | Int32 | Int64 => Ok (NpScalarType Int32)
          | _ => Raise (ValueError unknown_dtype_template [NpScalar t])
          end).
Proof.
  split.
  - intros v Hv. destruct v; try discriminate Hv; eexists; reflexivity.
  - intros t. destruct t; reflexivity.
Qed.

Lemma normalize_dtype_python_values_witness :
  python_value_or_scalar_class (NpScalarType Float64) = true
  /\ exists msg, normalize_dtype (NpScalarType Float32) (NpScalarType Float64)
                 = Raise (AttributeError msg).
Proof.
  split; [reflexivity|].
  exact (proj1 (normalize_dtype_python_values (NpScalarType Float32))
           (NpScalarType Float64) eq_refl).
Defined.

(** ** Value classification *)

(** [is_valid_param_value] accepts every numpy array and every TensorFlow
    tensor or variable, and rejects [None], every string ([str] or
    [np.str_]) and every Python list. *)
Theorem is_valid_param_value_by_kind :
  (forall t shape, is_valid_param_value (NpArray t shape) = true)
  /\ (forall id t, is_valid_param_value (TfTensor id t) = true)
  /\ (forall id t, is_valid_param_value (TfVariable id t) = true)
  /\ is_valid_param_value PyNone = false
  /\ (forall s, is_valid_param_value (PyStr s) = false)
  /\ is_valid_param_value (NpScalar Str_) = false
  /\ (forall l, is_valid_param_value (PyList l) = false /\ is_ndarray (PyList l) = false).
Proof. repeat split. Qed.

(** ** [tensor_name] *)

Section TensorNameProps.
Local Open Scope string_scope.

Lemma split_on_aux_app (sep : ascii) (p rest cur : string) :
  has_char sep p = false ->
  split_on_aux sep (p ++ rest) cur = split_on_aux sep rest (cur ++ p).
Proof.
  revert cur. induction p as [|c p IH]; intros cur H; simpl.
  - now rewrite str_append_nil_r.
  - simpl in H. apply orb_false_iff in H as [Hc Hp].
    rewrite Hc, IH by exact Hp. now rewrite str_append_assoc.
Qed.

Lemma split_on_join_tail (p : string) (ps : list string) (cur : string) :
  has_char "/" p = false -> Forall (fun q => has_char "/" q = false) ps ->
  split_on_aux "/" (p ++ join_tail "/" ps) cur = (cur ++ p) :: ps.
Proof.
  revert p cur. induction ps as [|q qs IH]; intros p cur Hp Hps.
  - simpl. rewrite str_append_nil_r. unfold split_on_aux. fold split_on_aux.
    rewrite <- (str_append_nil_r p) at 1.
    rewrite split_on_aux_app by exact Hp. reflexivity.
  - inversion Hps as [|? ? Hq Hqs]; subst.
    simpl join_tail. rewrite split_on_aux_app by exact Hp. simpl.
    rewrite IH by assumption. reflexivity.
Qed.

(** Splitting a tensor name on ["/"] gives back its segments, when there is
    at least one segment and none of them contains ["/"]. *)
Theorem tensor_name_split_roundtrip (parts : list string)
  (Hne : parts <> [])
  (Hseg : Forall (fun q => has_char "/" q = false) parts) :
  split_on "/" (tensor_name parts) = parts.
Proof.
  destruct parts as [|p ps]; [contradiction|].
  inversion Hseg as [|? ? Hp Hps]; subst.
  unfold split_on, tensor_name, str_join.
  now rewrite split_on_join_tail.
Qed.

Lemma tensor_name_split_roundtrip_witness :
  split_on "/" (tensor_name ["layer"; "kern"; "variance"]) = ["layer"; "kern"; "variance"].
Proof.
  apply tensor_name_split_roundtrip; [discriminate|].
  repeat constructor.
Defined.

Lemma join_tail_app (ps qs : list string) :
  join_tail "/" (ps ++ qs) = join_tail "/" ps ++ join_tail "/" qs.
Proof.
  induction ps as [|p ps IH]; simpl; [reflexivity|].
  rewrite IH, !str_append_assoc. reflexivity.
Qed.

(** Names compose: the name of two non-empty lists of segments put together
    is the name of the first list, a ["/"], and the name of the second; so
    naming the two names gives the name of all the segments. *)
Theorem tensor_name_app (a b : list string) (Ha : a <> []) (Hb : b <> []) :
  tensor_name (a ++ b) = tensor_name a ++ "/" ++ tensor_name b
  /\ tensor_name [tensor_name a; tensor_name b] = tensor_name (a ++ b).
Proof.
  assert (E : tensor_name (a ++ b) = tensor_name a ++ "/" ++ tensor_name b).
  { destruct a as [|p ps]; [contradiction|]. destruct b as [|q qs]; [contradiction|].
    unfold tensor_name, str_join. simpl.
    rewrite join_tail_app. simpl. rewrite !str_append_assoc. reflexivity. }
  split; [exact E|]. rewrite E. unfold tensor_name at 1, str_join. simpl.
  now rewrite str_append_nil_r.
Qed.

Lemma tensor_name_app_witness :
  tensor_name [tensor_name ["a"; "b"]; tensor_name ["c"]] = "a/b/c".
Proof.
  rewrite (proj2 (tensor_name_app ["a"; "b"] ["c"] ltac:(discriminate) ltac:(discriminate))).
  reflexivity.
Defined.

End TensorNameProps.

(** ** [vec_to_tri] beyond well-sized batches *)

Lemma scatter_tril_bad_length (N : nat) (vec : list Z) :
  List.length vec <> tri_num N ->
  scatter_nd (tril_indices N) N vec
  = Raise (InvalidArgumentError "updates.shape must equal indices.shape[:-1]"%string).
Proof.
  intros H. unfold scatter_nd. rewrite tril_indices_rows, tril_rows_length.
  apply Nat.eqb_neq in H. now rewrite H.
Qed.

Lemma scatter_tril_ok_length (N : nat) (vec : list Z) (m : matrix) :
  scatter_nd (tril_indices N) N vec = Ok m -> List.length vec = tri_num N.
Proof.
  intros H. destruct (Nat.eq_dec (List.length vec) (tri_num N)) as [E|E]; [exact E|].
  rewrite scatter_tril_bad_length in H by exact E. discriminate H.
Qed.

(** The packed length is checked after all, by [tf.scatter_nd] when the
    graph is built: a static width other than [N (N + 1) / 2], or [N = 0],
    makes [vec_to_tri] raise [ValueError], whatever the batch holds. *)
Theorem vec_to_tri_bad_shape (vectors : tensor2) (N : nat)
  (Hbad : N = 0 \/ t2_cols vectors <> tri_num N) :
  vec_to_tri vectors N = Raise (ValueError scatter_nd_shape_template []).
Proof.
  unfold vec_to_tri, scatter_nd_shape_check. rewrite tril_indices_rows.
  destruct Hbad as [-> | H]; [reflexivity|].
  pose proof (tril_rows_length N) as L.
  destruct (tril_rows N) as [|x xs]; [reflexivity|].
  rewrite L. apply Nat.eqb_neq in H. rewrite H. reflexivity.
Qed.

Lemma vec_to_tri_bad_shape_witness :
  vec_to_tri (mk_tensor2 [[1; 2]; [3; 4]]%Z 2) 2
  = Raise (ValueError scatter_nd_shape_template []).
Proof.
  apply vec_to_tri_bad_shape. right. vm_compute. intros H. discriminate H.
Defined.

(** Whenever [vec_to_tri] succeeds, each output is an [N] by [N] matrix and
    reading it at the lower-triangle indices, in order, gives back its input
    vector: the packing loses nothing. *)
Theorem vec_to_tri_roundtrip (vectors : tensor2) (N : nat) (ms : list matrix)
  (Hok : vec_to_tri vectors N = Ok ms) :
  Forall2 (fun v m => square N m
                      /\ map (fun ij => mat_get m (fst ij) (snd ij)) (tril_indices N) = v)
          (t2_rows vectors) ms.
Proof.
  unfold vec_to_tri in Hok.
  destruct (scatter_nd_shape_check (tril_indices N) N (t2_cols vectors));
    [discriminate Hok|].
  destruct vectors as [vectors M]. simpl in *. revert ms Hok.
  induction vectors as [|v vs IH]; intros ms Hok; cbn [mapM] in Hok.
  - injection Hok as <-. constructor.
  - destruct (scatter_nd (tril_indices N) N v) as [m|e] eqn:Hs; [|discriminate Hok].
    simpl in Hok.
    destruct (mapM (fun vector => scatter_nd (tril_indices N) N vector) vs) as [ms'|e]
      eqn:Hrest; [|discriminate Hok].
    simpl in Hok. injection Hok as <-.
    constructor; [|apply IH; reflexivity].
    pose proof (scatter_tril_ok_length N v m Hs) as Hlen.
    destruct (scatter_tril N v Hlen) as [m' [Hs' [Hsq Hget]]].
    rewrite Hs in Hs'. injection Hs' as <-.
    split; [exact Hsq|].
    rewrite tril_indices_rows in *.
    apply (nth_ext _ _ 0%Z 0%Z).
    + rewrite length_map, tril_rows_length. auto.
    + intros k Hk. rewrite length_map, tril_rows_length in Hk.
      rewrite (nth_indep _ _ (mat_get m (fst (0, 0)) (snd (0, 0))))
        by (rewrite length_map, tril_rows_length; exact Hk).
      rewrite (map_nth (fun ij => mat_get m (fst ij) (snd ij))).
      rewrite Hget.
      replace (fst (nth k (tril_rows N) (0, 0)), snd (nth k (tril_rows N) (0, 0)))
        with (nth k (tril_rows N) (0, 0)) by (now destruct (nth k (tril_rows N) (0, 0))).
      apply sum_at_nth; [apply tril_rows_NoDup | now rewrite tril_rows_length
                         | now rewrite tril_rows_length].
Qed.

Lemma vec_to_tri_roundtrip_witness :
  Forall2 (fun v m => square 3 m
                      /\ map (fun ij => mat_get m (fst ij) (snd ij)) (tril_indices 3) = v)
          (t2_rows (mk_tensor2 [[1; 2; 3; 4; 5; 6]]%Z 6))
          [[[1; 0; 0]; [2; 3; 0]; [4; 5; 6]]]%Z.
Proof. apply vec_to_tri_roundtrip. reflexivity. Defined.
